(** * DIMO vehicle telemetry generator: a shallow embedding of
    [vehicle_data_simulator.py] and the properties of its specification.

    The script is one linear pipeline.  Its steps are embedded as functions of
    a small state-and-exception monad over the process' observable world
    (standard output, standard error, the files written).  Python values are
    modelled as the script uses them:
    - a [dict] is an insertion-ordered association list with replacement
      in place ([dict_set]);
    - a [str] is a [string], every character being one code point below 256;
    - an [int] is a [Z];
    - the tabular dataset is a pandas frame: column labels, and rows carrying
      their index label; a cell is text or missing ([None]);
    - exceptions carry their class, so that [except Exception] can tell an
      [Exception] from the other [BaseException]s.

    The libraries the script calls are embedded as far as the script observes
    them: the frame operations [len], [head], [iterrows], [columns] and
    [row[name]]; the builder's [add_column]; and [json.dump(.., indent=2)]
    with its reader [json.load], for the values an output record holds. *)

From Stdlib Require Import ZArith QArith Ascii String Decimal DecimalString DecimalZ DecimalPos DecimalFacts.
From stdpp Require Import gmap strings list.

Local Open Scope Z_scope.

(* ------------------------------------------------------------------------- *)
(** ** Python dictionaries *)

Module PyDict.
Section Dict.
Context {K : Type} `{EqDecision K} {V : Type}.

(** Items in insertion order. *)
Definition dict := list (K * V).

Definition dict_empty : dict := [].

(** [d.get(k)]: the value stored under [k], if any. *)
Fixpoint dict_get (k : K) (d : dict) : option V :=
  match d with
  | [] => None
  | (k', v) :: d' => if decide (k = k') then Some v else dict_get k d'
  end.

(** [d[k] = v]: replace the value of an existing key where it stands, or
    append a new item. *)
Fixpoint dict_set (k : K) (v : V) (d : dict) : dict :=
  match d with
  | [] => [(k, v)]
  | (k', v') :: d' =>
      if decide (k = k') then (k', v) :: d' else (k', v') :: dict_set k v d'
  end.

(** [k in d] *)
Definition dict_contains (k : K) (d : dict) : bool :=
  match dict_get k d with Some _ => true | None => false end.

Definition dict_keys (d : dict) : list K := map fst d.
Definition dict_values (d : dict) : list V := map snd d.
Definition dict_items (d : dict) : list (K * V) := d.

(** A display [{k1: v1, ..., kn: vn}], or [dict(items)]: the items are
    stored left to right. *)
Definition dict_literal (items : list (K * V)) : dict :=
  fold_left (fun d kv => dict_set (fst kv) (snd kv) d) items dict_empty.

(** The invariant of every dictionary: keys are pairwise distinct. *)
Definition dict_wf (d : dict) : Prop := NoDup (dict_keys d).
End Dict.
Global Arguments dict : clear implicits.
End PyDict.
Import PyDict.

(* ------------------------------------------------------------------------- *)
(** ** Text helpers *)

(** [s * n] *)
Fixpoint str_repeat (s : string) (n : nat) : string :=
  match n with
  | O => ""
  | S n' => s +:+ str_repeat s n'
  end.

(** [str(n)] for an [int]. *)
Definition str_int (z : Z) : string := NilZero.string_of_int (Z.to_int z).

Definition str_nat (n : nat) : string := str_int (Z.of_nat n).

(* ------------------------------------------------------------------------- *)
(** ** The tabular dataset *)

(** A cell holds text or is missing ([None]). *)
Definition cell := option string.

(** A frame: column labels, and the rows in order, each with its index label
    and one cell per column. *)
Record DataFrame := mkFrame {
  columns : list string;
  rows : list (Z * list cell)
}.

(** A row as [iterrows] yields it: the column labels and the cells. *)
Record Series := mkSeries {
  labels : list string;
  cells : list cell
}.

(** [dataset.iterrows()] *)
Definition iterrows (df : DataFrame) : list (Z * Series) :=
  map (fun r => (fst r, mkSeries (columns df) (snd r))) (rows df).

(** [row[name]]: the cell under the first column labelled [name];
    [None] stands for the [KeyError] of an unknown label. *)
Fixpoint series_lookup (ls : list string) (cs : list cell) (name : string)
  : option cell :=
  match ls, cs with
  | l :: ls', c :: cs' => if decide (name = l) then Some c else series_lookup ls' cs' name
  | _, _ => None
  end.

Definition getitem (row : Series) (name : string) : option cell :=
  series_lookup (labels row) (cells row) name.

(** [dataset.head(n)] *)
Definition frame_head (n : nat) (df : DataFrame) : DataFrame :=
  mkFrame (columns df) (firstn n (rows df)).



(* ------------------------------------------------------------------------- *)
(** ** Python objects seen by the script *)

#[warnings="-register-all"]
Inductive pyobj : Type :=
| PyNone
| PyFrame (df : DataFrame)
| PyColumn (col : list (Z * cell))
| PyList (items : list pyobj)
| PyInstance (attrs : dict string pyobj).

(** The column of a frame, as attribute access [df.name] returns it. *)
Definition frame_column (df : DataFrame) (name : string) : option pyobj :=
  if bool_decide (name ∈ columns df)
  then Some (PyColumn (map (fun r =>
         (fst r, match series_lookup (columns df) (snd r) name with
                 | Some c => c
                 | None => None
                 end)) (rows df)))
  else None.

(** [getattr(o, name)] for a data attribute; [None] when there is none. *)
Definition getattr (o : pyobj) (name : string) : option pyobj :=
  match o with
  | PyInstance attrs => dict_get name attrs
  | PyFrame df => frame_column df name
  | _ => None
  end.

(** [hasattr(o, '__iter__')] *)
Definition is_iterable (o : pyobj) : bool :=
  match o with
  | PyFrame _ | PyColumn _ | PyList _ => true
  | PyInstance attrs => dict_contains "__iter__" attrs
  | PyNone => false
  end.

Definition hasattr (o : pyobj) (name : string) : bool :=
  if decide (name = "__iter__") then is_iterable o
  else match getattr o name with Some _ => true | None => false end.

Definition is_None (o : pyobj) : bool :=
  match o with PyNone => true | _ => false end.

(* ------------------------------------------------------------------------- *)
(** ** Exceptions *)

Inductive exception_class :=
| KeyError
| TypeError
| AttributeError
| OtherException (name : string)
| KeyboardInterrupt
| SystemExit
| GeneratorExit.

Record exn := mkExn { exn_class : exception_class; exn_msg : string }.

(** [isinstance(e, Exception)]: the three classes below derive from
    [BaseException] directly. *)
Definition isinstance_Exception (e : exn) : bool :=
  match exn_class e with
  | KeyboardInterrupt | SystemExit | GeneratorExit => false
  | _ => true
  end.

(* ------------------------------------------------------------------------- *)
(** ** The world and the monad of the script *)

(** One argument of [print]: text, or a value whose rendering belongs to the
    libraries ([type(o)], the table shown for a frame, [dir(o)]). *)
Inductive fragment :=
| FText (s : string)
| FType (o : pyobj)
| FShow (o : pyobj)
| FPublicAttrs (o : pyobj).

Definition line := list fragment.

Record World := mkWorld {
  stdout : list line;
  stderr : list exn;
  files : gmap string string
}.

Inductive result (A : Type) :=
| Ret (a : A)
| Raise (e : exn).
Global Arguments Ret {A} a.
Global Arguments Raise {A} e.

Definition M (A : Type) : Type := World -> World * result A.

Definition ret {A} (a : A) : M A := fun w => (w, Ret a).

Definition raise {A} (e : exn) : M A := fun w => (w, Raise e).

Definition bind {A B} (m : M A) (k : A -> M B) : M B :=
  fun w =>
    match m w with
    | (w', Ret a) => k a w'
    | (w', Raise e) => (w', Raise e)
    end.

Global Instance M_ret : MRet M := @ret.
Global Instance M_bind : MBind M := fun A B k m => bind m k.

(** [try: body  except Exception as e: handler(e)] *)
Definition try_except_Exception {A} (body : M A) (handler : exn -> M A) : M A :=
  fun w =>
    match body w with
    | (w', Ret a) => (w', Ret a)
    | (w', Raise e) =>
        if isinstance_Exception e then handler e w' else (w', Raise e)
    end.

(** [print(...)] of one line. *)
Definition print (l : line) : M unit :=
  fun w => (mkWorld (stdout w ++ [l]) (stderr w) (files w), Ret tt).

Definition print_text (s : string) : M unit := print [FText s].

(** [traceback.print_exc()] *)
Definition traceback_print_exc (e : exn) : M unit :=
  fun w => (mkWorld (stdout w) (stderr w ++ [e]) (files w), Ret tt).

(** [with open(path, 'w') as f: f.write(text)] *)
Definition write_file (path text : string) : M unit :=
  fun w => (mkWorld (stdout w) (stderr w) (<[path := text]> (files w)), Ret tt).

(** [for x in xs: body x] *)
Fixpoint for_each {A} (xs : list A) (body : A -> M unit) : M unit :=
  match xs with
  | [] => mret tt
  | x :: xs' => body x ;; for_each xs' body
  end.

Definition banner : string := str_repeat "=" 60.

(* ------------------------------------------------------------------------- *)
(** ** Step 3: the taxonomy *)

(** The dictionary display of [define_dimo_categories], item by item. *)
Definition categories_display : list (string * list string) :=
  [
    ("vehicle_info_status", [
        "odometer_reading";
        "ignition_status";
        "vehicle_speed";
        "powertrain_type";
        "remaining_range"
     ]);
    ("location_data", [
        "latitude_longitude";
        "altitude";
        "approximate_location";
        "location_privacy_zones"
     ]);
    ("battery_charging", [
        "state_of_charge";
        "charging_status";
        "charge_limit";
        "battery_power";
        "charging_current_voltage";
        "gross_battery_capacity";
        "remaining_energy";
        "low_voltage_battery"
     ]);
    ("engine_metrics", [
        "engine_rpm";
        "throttle_position";
        "engine_air_intake";
        "oil_level";
        "coolant_temperature"
     ]);
    ("fuel_system", [
        "fuel_type";
        "fuel_percentage";
        "fuel_level_liters"
     ]);
    ("tire_pressure", [
        "front_left_wheel";
        "front_right_wheel";
        "rear_left_wheel";
        "rear_right_wheel"
     ]);
    ("doors_windows", [
        "front_driver_door";
        "front_passenger_door";
        "rear_driver_door";
        "rear_passenger_door";
        "front_driver_window";
        "front_passenger_window";
        "rear_driver_window";
        "rear_passenger_window"
     ]);
    ("diagnostics", [
        "diagnostic_trouble_codes";
        "engine_runtime";
        "intake_temperature";
        "engine_load";
        "barometric_pressure"
     ]);
    ("environmental", [
        "exterior_air_temperature"
     ]);
    ("device_connectivity", [
        "wifi_status";
        "ssid";
        "gps_satellites";
        "gps_precision"
     ])
  ].

(** The value of the display: the dictionary [categories]. *)
Definition dimo_categories : dict string (list string) :=
  dict_literal categories_display.

Definition define_dimo_categories : M (dict string (list string)) :=
  print_text banner ;;
  print_text "STEP 3: Defining DIMO Data Categories" ;;
  print_text banner ;;
  let categories := dimo_categories in
  print_text ("Total Categories: " +:+ str_nat (length categories)) ;;
  for_each (dict_items categories) (fun item =>
    print_text ("  - " +:+ fst item +:+ ": " +:+ str_nat (length (snd item))
                +:+ " subcategories")) ;;
  print_text "✓ Categories defined
" ;;
  mret categories.

(* ------------------------------------------------------------------------- *)
(** ** Steps 2, 4 and 5: the request builder *)

Record InferenceParameters := mkInference {
  temperature : Q;
  top_p : Q;
  max_tokens : Z
}.

Record ModelConfig := mkModelConfig {
  alias : string;
  model : string;
  provider : string;
  inference_parameters : InferenceParameters
}.

Inductive SamplerType := CATEGORY | SUBCATEGORY.

Inductive sampler_params :=
| CategorySamplerParams (values : list string)
| SubcategorySamplerParams (category : string) (values : dict string (list string)).

Inductive column_config :=
| SamplerColumnConfig (name : string) (sampler_type : SamplerType)
                      (params : sampler_params)
| LLMTextColumn (name column_type model_alias prompt : string).

Definition column_name (c : column_config) : string :=
  match c with
  | SamplerColumnConfig name _ _ => name
  | LLMTextColumn name _ _ _ => name
  end.

(** The builder keeps the columns registered so far, by name. *)
Record DataDesignerConfigBuilder := mkBuilder {
  model_configs : list ModelConfig;
  column_configs : dict string column_config
}.

(** [config_builder.add_column(c)] *)
Definition add_column (c : column_config) (b : DataDesignerConfigBuilder)
  : DataDesignerConfigBuilder :=
  mkBuilder (model_configs b) (dict_set (column_name c) c (column_configs b)).

Definition setup_model_configuration : M (DataDesignerConfigBuilder * string) :=
  print_text banner ;;
  print_text "STEP 2: Setting up Model Configuration" ;;
  print_text banner ;;
  let MODEL_PROVIDER := "nvidiabuild" in
  let MODEL_ID := "nvidia/nemotron-3-nano-30b-a3b" in
  let MODEL_ALIAS := "nemotron-nano-v3" in
  print_text ("Model Provider: " +:+ MODEL_PROVIDER) ;;
  print_text ("Model ID: " +:+ MODEL_ID) ;;
  print_text ("Model Alias: " +:+ MODEL_ALIAS) ;;
  let model_configs := [
    mkModelConfig MODEL_ALIAS MODEL_ID MODEL_PROVIDER
      (mkInference (25 # 100) (1 # 1) 1024)
  ] in
  print_text "✓ Model configuration created" ;;
  let config_builder := mkBuilder model_configs dict_empty in
  print_text "✓ Config builder initialized
" ;;
  mret (config_builder, MODEL_ALIAS).

(** The loop [for category, subcategories in categories.items():
    subcategory_mapping[category] = subcategories]. *)
Definition build_subcategory_mapping (categories : dict string (list string))
  : dict string (list string) :=
  fold_left (fun mapping item => dict_set (fst item) (snd item) mapping)
            (dict_items categories) dict_empty.

(** [sum(len(subs) for subs in categories.values())] *)
Definition total_subcategories (categories : dict string (list string)) : nat :=
  fold_left (fun acc subs => (acc + length subs)%nat) (dict_values categories) 0%nat.

Definition create_category_subcategory_columns
    (config_builder : DataDesignerConfigBuilder)
    (categories : dict string (list string)) (model_alias : string)
  : M DataDesignerConfigBuilder :=
  print_text banner ;;
  print_text "STEP 4: Creating Sampler Columns" ;;
  print_text banner ;;
  let category_list := dict_keys categories in
  print_text "
4a. Setting up Category Sampler..." ;;
  let config_builder :=
    add_column (SamplerColumnConfig "category" CATEGORY
                  (CategorySamplerParams category_list)) config_builder in
  print_text ("   ✓ Added 'category' column with "
              +:+ str_nat (length category_list) +:+ " categories") ;;
  print_text "
4b. Setting up Subcategory Sampler..." ;;
  let subcategory_mapping := build_subcategory_mapping categories in
  let config_builder :=
    add_column (SamplerColumnConfig "subcategory" SUBCATEGORY
                  (SubcategorySamplerParams "category" subcategory_mapping))
               config_builder in
  print_text ("   ✓ Added 'subcategory' column with "
              +:+ str_nat (total_subcategories categories)
              +:+ " total subcategories") ;;
  print_text "   ✓ Subcategories are linked to their parent categories
" ;;
  mret config_builder.

Definition add_telemetry_value_column
    (config_builder : DataDesignerConfigBuilder) (model_alias : string)
  : M DataDesignerConfigBuilder :=
  print_text banner ;;
  print_text "STEP 5: Adding Telemetry Value Generation Column" ;;
  print_text banner ;;
  let config_builder :=
    add_column (LLMTextColumn "telemetry_value" "llm-text" model_alias
      "Generate a realistic telemetry value for {{category}} - {{subcategory}}. Return only the numeric value with units.")
      config_builder in
  print_text "✓ Added 'telemetry_value' column" ;;
  mret config_builder.

(* ------------------------------------------------------------------------- *)
(** ** Step 6: generation and response normalization *)

(** The handle on the remote service.  [preview] is the answer of the service
    to one request (a schema and a row count): a value, or an exception. *)
Record NeMoDataDesignerClient := mkClient {
  base_url : string;
  preview : DataDesignerConfigBuilder -> Z -> result pyobj
}.

(** [client.preview(config_builder, num_records=n)] *)
Definition client_preview (client : NeMoDataDesignerClient)
    (config_builder : DataDesignerConfigBuilder) (n : Z) : M pyobj :=
  fun w => (w, preview client config_builder n).

(** [len(o)] *)
Definition py_len (o : pyobj) : M nat :=
  match o with
  | PyFrame df => mret (length (rows df))
  | PyColumn col => mret (length col)
  | PyList items => mret (length items)
  | PyNone => raise (mkExn TypeError "object of type 'NoneType' has no len()")
  | PyInstance _ => raise (mkExn TypeError "object has no len()")
  end.

(** [o.head(n)] *)
Definition py_head (o : pyobj) (n : nat) : M pyobj :=
  match o with
  | PyFrame df => mret (PyFrame (frame_head n df))
  | PyColumn col => mret (PyColumn (firstn n col))
  | PyList _ => raise (mkExn AttributeError "'list' object has no attribute 'head'")
  | PyNone => raise (mkExn AttributeError "'NoneType' object has no attribute 'head'")
  | PyInstance attrs =>
      if dict_contains "head" attrs
      then raise (mkExn TypeError "object is not callable")
      else raise (mkExn AttributeError "object has no attribute 'head'")
  end.

(** [o.name], after [hasattr(o, name)] held. *)
Definition py_getattr (o : pyobj) (name : string) : M pyobj :=
  match getattr o name with
  | Some v => mret v
  | None => raise (mkExn AttributeError ("object has no attribute '" +:+ name +:+ "'"))
  end.

(** The chain [if hasattr(.., 'dataset') .. elif hasattr(.., 'data') ..
    elif hasattr(.., '__iter__') .. else ..], with [dataset = None] before. *)
Definition extract_dataset (preview_result : pyobj) : M pyobj :=
  if hasattr preview_result "dataset" then
    dataset ← py_getattr preview_result "dataset";
    print_text "✓ Found .dataset attribute" ;;
    mret dataset
  else if hasattr preview_result "data" then
    dataset ← py_getattr preview_result "data";
    print_text "✓ Found .data attribute" ;;
    mret dataset
  else if hasattr preview_result "__iter__" then
    print_text "✓ Using preview_result directly (iterable)" ;;
    mret preview_result
  else
    print [FText "⚠ Available attributes: "; FPublicAttrs preview_result] ;;
    mret PyNone.

(** The body of the [try] of [generate_dimo_dataset]. *)
Definition generate_try (client : NeMoDataDesignerClient)
    (config_builder : DataDesignerConfigBuilder) (num_samples : Z) : M pyobj :=
  print_text "Calling client.preview()..." ;;
  preview_result ← client_preview client config_builder num_samples;
  print_text "✓ Preview completed" ;;
  print [FText "Result type: "; FType preview_result] ;;
  if is_None preview_result then
    print_text "❌ preview_result is None!" ;;
    mret PyNone
  else
    dataset ← extract_dataset preview_result;
    (if negb (is_None dataset) then
       print [FText "✓ Dataset type: "; FType dataset] ;;
       n ← py_len dataset;
       print_text ("✓ Successfully generated " +:+ str_nat n +:+ " samples!") ;;
       print_text "
First sample:" ;;
       first ← py_head dataset 1;
       print [FShow first]
     else
       print_text "❌ Could not extract dataset from preview_result") ;;
    mret dataset.

Definition generate_dimo_dataset (client : NeMoDataDesignerClient)
    (config_builder : DataDesignerConfigBuilder) (num_samples : Z) : M pyobj :=
  print_text banner ;;
  print_text "STEP 6: Generating Dataset" ;;
  print_text banner ;;
  print_text ("Generating " +:+ str_int num_samples +:+ " samples...") ;;
  print_text "This may take a few moments...
" ;;
  try_except_Exception
    (generate_try client config_builder num_samples)
    (fun e =>
       print_text ("✗ Error during generation: " +:+ exn_msg e) ;;
       traceback_print_exc e ;;
       mret PyNone).

(* ------------------------------------------------------------------------- *)
(** ** JSON values and the text written by [json.dump(.., indent=2)] *)

(** The hashable scalars of an output record: [None], an [int], a [str]. *)
Inductive scalar :=
| SNone
| SInt (z : Z)
| SStr (s : string).

Global Instance scalar_eq_dec : EqDecision scalar.
Proof. solve_decision. Defined.

#[warnings="-register-all"]
Inductive json : Type :=
| JAtom (a : scalar)
| JArr (items : list json)
| JObj (members : dict string json).

Definition dquote : ascii := "034".
Definition backslash : ascii := "092".
Definition newline : ascii := "010".

Definition hex_digit (n : N) : ascii :=
  nth (N.to_nat n)
      (list_ascii_of_string "0123456789abcdef") "f"%char.

(** One character of a string, as [ensure_ascii] writes it: the two-character
    escapes, printable ASCII as it is, [\u00xx] otherwise. *)
Definition escape_char (c : ascii) : string :=
  let n := N_of_ascii c in
  if Ascii.eqb c dquote then String backslash (String dquote "")
  else if Ascii.eqb c backslash then String backslash (String backslash "")
  else if Ascii.eqb c newline then String backslash "n"
  else if Ascii.eqb c "013" then String backslash "r"
  else if Ascii.eqb c "009" then String backslash "t"
  else if Ascii.eqb c "008" then String backslash "b"
  else if Ascii.eqb c "012" then String backslash "f"
  else if ((32 <=? n) && (n <=? 126))%N then String c ""
  else String backslash
         (String "u" (String "0" (String "0"
           (String (hex_digit (n / 16)) (String (hex_digit (n mod 16)) ""))))).

Fixpoint escape_string (s : string) : string :=
  match s with
  | EmptyString => ""
  | String c s' => escape_char c +:+ escape_string s'
  end.

Definition encode_string (s : string) : string :=
  String dquote (escape_string s +:+ String dquote "").

Definition encode_atom (a : scalar) : string :=
  match a with
  | SNone => "null"
  | SInt z => str_int z
  | SStr s => encode_string s
  end.

(** ['\n' + indent * level], with [indent = 2] spaces. *)
Definition newline_indent (level : nat) : string :=
  String newline (str_repeat "  " level).

Fixpoint str_join (sep : string) (parts : list string) : string :=
  match parts with
  | [] => ""
  | [p] => p
  | p :: parts' => p +:+ sep +:+ str_join sep parts'
  end.

Fixpoint encode (level : nat) (v : json) : string :=
  match v with
  | JAtom a => encode_atom a
  | JArr [] => "[]"
  | JArr items =>
      "[" +:+ newline_indent (S level) +:+
      str_join ("," +:+ newline_indent (S level))
               (map (encode (S level)) items) +:+
      newline_indent level +:+ "]"
  | JObj [] => "{}"
  | JObj members =>
      "{" +:+ newline_indent (S level) +:+
      str_join ("," +:+ newline_indent (S level))
               (map (fun kv => encode_string (fst kv) +:+ ": " +:+
                               encode (S level) (snd kv)) members) +:+
      newline_indent level +:+ "}"
  end.

(** [json.dumps(v, indent=2)] *)
Definition json_dumps (v : json) : string := encode 0 v.

(* ------------------------------------------------------------------------- *)
(** ** The reader, [json.load] *)















(* ------------------------------------------------------------------------- *)
(** ** Step 7: persistence and summary *)

(** An output record, and the list [data_list] of them. *)
Definition record := dict string scalar.

Definition scalar_of_cell (c : cell) : scalar :=
  match c with
  | Some s => SStr s
  | None => SNone
  end.

(** [row[name]] *)
Definition row_getitem (row : Series) (name : string) : M scalar :=
  match getitem row name with
  | Some c => mret (scalar_of_cell c)
  | None => raise (mkExn KeyError ("'" +:+ name +:+ "'"))
  end.

(** [dataset.iterrows()] *)
Definition py_iterrows (dataset : pyobj) : M (list (Z * Series)) :=
  match dataset with
  | PyFrame df => mret (iterrows df)
  | _ => raise (mkExn AttributeError "object has no attribute 'iterrows'")
  end.

(** [dataset.columns] *)
Definition py_columns (dataset : pyobj) : M (list string) :=
  match dataset with
  | PyFrame df => mret (columns df)
  | _ => raise (mkExn AttributeError "object has no attribute 'columns'")
  end.

(** The body of the loop over the rows, up to [data_list.append(record)]. *)
Definition make_record (dataset : pyobj) (idx : Z) (row : Series) : M record :=
  category ← row_getitem row "category";
  subcategory ← row_getitem row "subcategory";
  let record := dict_literal [
    ("sample_id", SInt idx);
    ("category", category);
    ("subcategory", subcategory)
  ] in
  dataset_columns ← py_columns dataset;
  if bool_decide ("telemetry_value" ∈ dataset_columns) then
    telemetry_value ← row_getitem row "telemetry_value";
    mret (dict_set "telemetry_value" telemetry_value record)
  else
    mret record.

Fixpoint collect_records (dataset : pyobj) (items : list (Z * Series))
    (data_list : list record) : M (list record) :=
  match items with
  | [] => mret data_list
  | (idx, row) :: items' =>
      record ← make_record dataset idx row;
      collect_records dataset items' (data_list ++ [record])
  end.

(** The value [json.dump] receives: a list of dictionaries. *)
Definition record_members (r : record) : dict string json :=
  map (fun kv => (fst kv, JAtom (snd kv))) r.

Definition json_of_record (r : record) : json := JObj (record_members r).

Definition json_of_data_list (data_list : list record) : json :=
  JArr (map json_of_record data_list).

(** [str(a)] *)
Definition str_scalar (a : scalar) : string :=
  match a with
  | SNone => "None"
  | SInt z => str_int z
  | SStr s => s
  end.

(** [sample[key]] *)
Definition record_getitem (sample : record) (key : string) : M scalar :=
  match dict_get key sample with
  | Some v => mret v
  | None => raise (mkExn KeyError ("'" +:+ key +:+ "'"))
  end.

(** [enumerate(xs)] *)
Definition enumerate {A} (xs : list A) : list (nat * A) :=
  combine (seq 0 (length xs)) xs.

Definition show_sample (i : nat) (sample : record) : M unit :=
  print_text ("
Sample " +:+ str_nat (i + 1) +:+ ":") ;;
  category ← record_getitem sample "category";
  print_text ("  Category: " +:+ str_scalar category) ;;
  subcategory ← record_getitem sample "subcategory";
  print_text ("  Subcategory: " +:+ str_scalar subcategory) ;;
  if dict_contains "telemetry_value" sample then
    value ← record_getitem sample "telemetry_value";
    print_text ("  Value: " +:+ str_scalar value)
  else mret tt.

(** The frequency count [category_counts[cat] = category_counts.get(cat, 0) + 1]. *)
Fixpoint count_categories (data_list : list record)
    (category_counts : dict scalar nat) : M (dict scalar nat) :=
  match data_list with
  | [] => mret category_counts
  | sample :: data_list' =>
      cat ← record_getitem sample "category";
      count_categories data_list'
        (dict_set cat (default 0%nat (dict_get cat category_counts) + 1)%nat
                  category_counts)
  end.

(** [a < b] on scalars; [None] is the [TypeError] of an unordered pair. *)
Definition scalar_lt (a b : scalar) : option bool :=
  match a, b with
  | SStr s, SStr t => Some (String.ltb s t)
  | SInt x, SInt y => Some (x <? y)
  | _, _ => None
  end.

(** [x < y] on the pairs [(key, count)]. *)
Definition item_lt (x y : scalar * nat) : option bool :=
  if decide (fst x = fst y) then Some (snd x <? snd y)%nat
  else scalar_lt (fst x) (fst y).

Fixpoint insert_sorted (x : scalar * nat) (l : list (scalar * nat))
  : option (list (scalar * nat)) :=
  match l with
  | [] => Some [x]
  | y :: l' =>
      b ← item_lt x y;
      if b : bool then Some (x :: y :: l')
      else l'' ← insert_sorted x l'; Some (y :: l'')
  end.

Fixpoint sort_items (l : list (scalar * nat)) : option (list (scalar * nat)) :=
  match l with
  | [] => Some []
  | x :: l' => s ← sort_items l'; insert_sorted x s
  end.

(** [sorted(category_counts.items())] *)
Definition py_sorted (items : list (scalar * nat)) : M (list (scalar * nat)) :=
  match sort_items items with
  | Some l => mret l
  | None => raise (mkExn TypeError "'<' not supported between instances")
  end.

(** What follows the write: the preview of the first five samples and the
    statistics. *)
Definition display_results (data_list : list record) : M unit :=
  print_text ("
" +:+ banner) ;;
  print_text "Preview of Generated Data (first 5 samples):" ;;
  print_text banner ;;
  for_each (enumerate (firstn 5 data_list))
           (fun p => show_sample (fst p) (snd p)) ;;
  print_text ("
" +:+ banner) ;;
  print_text "Dataset Statistics:" ;;
  print_text banner ;;
  category_counts ← count_categories data_list dict_empty;
  print_text ("Total samples: " +:+ str_nat (length data_list)) ;;
  print_text ("Unique categories: " +:+ str_nat (length category_counts)) ;;
  print_text "
Samples per category:" ;;
  sorted_counts ← py_sorted (dict_items category_counts);
  for_each sorted_counts (fun p =>
    print_text ("  " +:+ str_scalar (fst p) +:+ ": " +:+ str_nat (snd p)
                +:+ " samples")).

Definition save_and_display_results (dataset : pyobj) (output_file : string)
  : M unit :=
  print_text ("
" +:+ banner) ;;
  print_text "STEP 7: Saving Results" ;;
  print_text banner ;;
  if is_None dataset then
    print_text "❌ No dataset to save - dataset is None" ;;
    mret tt
  else
    n ← py_len dataset;
    if (n =? 0)%nat then
      print_text "❌ Dataset is empty - no records generated" ;;
      mret tt
    else
      items ← py_iterrows dataset;
      data_list ← collect_records dataset items [];
      write_file output_file (json_dumps (json_of_data_list data_list)) ;;
      print_text ("✓ Dataset saved to: " +:+ output_file) ;;
      display_results data_list.

(** The default output file of the save step. *)
Definition default_output_file : string := "dimo_telemetry_data.json".

(* ------------------------------------------------------------------------- *)
(** ** The main pipeline *)

Definition initialize_nemo_client
    (service : DataDesignerConfigBuilder -> Z -> result pyobj)
  : M NeMoDataDesignerClient :=
  print_text banner ;;
  print_text "STEP 1: Initializing NeMo Data Designer Client" ;;
  print_text banner ;;
  let NEMO_MICROSERVICES_BASE_URL := "http://localhost:8080" in
  let data_designer_client := mkClient NEMO_MICROSERVICES_BASE_URL service in
  print_text ("✓ Connected to: " +:+ NEMO_MICROSERVICES_BASE_URL) ;;
  print_text "✓ Client initialized successfully!
" ;;
  mret data_designer_client.

Definition main_try
    (service : DataDesignerConfigBuilder -> Z -> result pyobj) : M unit :=
  client ← initialize_nemo_client service;
  p ← setup_model_configuration;
  let config_builder := fst p in
  let model_alias := snd p in
  categories ← define_dimo_categories;
  config_builder ←
    create_category_subcategory_columns config_builder categories model_alias;
  config_builder ← add_telemetry_value_column config_builder model_alias;
  dataset ← generate_dimo_dataset client config_builder 10;
  save_and_display_results dataset default_output_file ;;
  print_text ("
" +:+ banner) ;;
  print_text "✓ GENERATION COMPLETE!" ;;
  print_text banner ;;
  print_text "
Your DIMO telemetry dataset is ready!" ;;
  print_text "Check 'dimo_telemetry_data.json' for the full dataset.
".

(** [main]: any [Exception] of the run prints the troubleshooting tips and is
    raised again. *)
Definition main (service : DataDesignerConfigBuilder -> Z -> result pyobj)
  : M unit :=
  print_text ("
" +:+ banner) ;;
  print_text "DIMO VEHICLE TELEMETRY DATA GENERATOR" ;;
  print_text "Using NVIDIA NeMo Data Designer" ;;
  print_text (banner +:+ "
") ;;
  try_except_Exception
    (main_try service)
    (fun e =>
       print_text ("
✗ Error occurred: " +:+ exn_msg e) ;;
       print_text "
Troubleshooting tips:" ;;
       print_text "1. Ensure NeMo Microservice is running at http://localhost:8080" ;;
       print_text "2. Check that nemo_microservices package is installed" ;;
       print_text "3. Verify your model configuration is correct" ;;
       print_text "4. Review error message above for specific issues
" ;;
       raise e).

(* ------------------------------------------------------------------------- *)
(** ** Definitions used to state the properties *)

(** The result of normalization in the words of the specification: the
    [dataset] attribute if the result has one, else the [data] attribute,
    else the result itself if it is iterable, else nothing. *)
Definition normalized (preview_result : pyobj) : pyobj :=
  match getattr preview_result "dataset" with
  | Some d => d
  | None =>
      match getattr preview_result "data" with
      | Some d => d
      | None => if is_iterable preview_result then preview_result else PyNone
      end
  end.

(** The values that support both [len(..)] and [.head(..)]. *)
Definition tabular (o : pyobj) : bool :=
  match o with
  | PyFrame _ | PyColumn _ => true
  | _ => false
  end.

(** The cell of a row under a column, [None] when the row has none. *)
Definition cell_at (df : DataFrame) (r : Z * list cell) (name : string) : cell :=
  default None (series_lookup (columns df) (snd r) name).

Definition has_telemetry_column (df : DataFrame) : bool :=
  bool_decide ("telemetry_value" ∈ columns df).

(** The output record of a row, field by field. *)
Definition record_of_row (df : DataFrame) (r : Z * list cell) : record :=
  [("sample_id", SInt (fst r));
   ("category", scalar_of_cell (cell_at df r "category"));
   ("subcategory", scalar_of_cell (cell_at df r "subcategory"))]
  ++ (if has_telemetry_column df
      then [("telemetry_value", scalar_of_cell (cell_at df r "telemetry_value"))]
      else []).

Definition records_of_frame (df : DataFrame) : list record :=
  map (record_of_row df) (rows df).





(** A frame as the service returns it for the three registered columns; the
    second row has no telemetry value. *)
Definition sample_frame : DataFrame :=
  mkFrame ["category"; "subcategory"; "telemetry_value"]
    [(0, [Some "fuel_system"; Some "fuel_type"; Some "gasoline"]);
     (1, [Some "environmental"; Some "exterior_air_temperature"; None])].


(** A computation that leaves the files as they are, whatever it returns. *)
Definition keeps_files {A} (m : M A) : Prop :=
  forall w, files (fst (m w)) = files w.

(** A computation that ends with the result [r] from every world, and
    leaves the files as they are. *)
Definition yields {A} (m : M A) (r : result A) : Prop :=
  forall w, snd (m w) = r /\ files (fst (m w)) = files w.

(** A world in which nothing was printed or written yet. *)
Definition empty_world : World := mkWorld [] [] ∅.







(** A computation whose last printed line is [l], whatever it returns. *)
Definition ends_printing {A} (m : M A) (l : line) : Prop :=
  forall w, last (stdout (fst (m w))) = Some l.

(** The number of records of a list whose category is [k]. *)
Definition category_count (k : scalar) (data_list : list record) : nat :=
  length (filter (fun r => dict_get "category" r = Some k) data_list).








(** A frame without the [category] column. *)
Definition uncategorized_frame : DataFrame :=
  mkFrame ["subcategory"; "telemetry_value"]
    [(0, [Some "fuel_type"; Some "gasoline"])].

(** A remote service that gives the same answer to every request. *)
Definition constant_service (answer : result pyobj)
  : DataDesignerConfigBuilder -> Z -> result pyobj :=
  fun _ _ => answer.

(** The text of the prompt of the [telemetry_value] column. *)
Definition telemetry_prompt : string :=
  "Generate a realistic telemetry value for {{category}} - {{subcategory}}. Return only the numeric value with units.".

(** The model configuration [main] sets up in step 2. *)
Definition main_model_config : ModelConfig :=
  mkModelConfig "nemotron-nano-v3" "nvidia/nemotron-3-nano-30b-a3b" "nvidiabuild"
    (mkInference (25 # 100) (1 # 1) 1024).

(** The builder [main] hands to the generation step: the builder of step 2
    after the registrations of steps 4 and 5. *)
Definition main_request : DataDesignerConfigBuilder :=
  add_column
    (LLMTextColumn "telemetry_value" "llm-text" "nemotron-nano-v3"
                   telemetry_prompt)
    (add_column
       (SamplerColumnConfig "subcategory" SUBCATEGORY
          (SubcategorySamplerParams "category"
             (build_subcategory_mapping dimo_categories)))
       (add_column
          (SamplerColumnConfig "category" CATEGORY
             (CategorySamplerParams (dict_keys dimo_categories)))
          (mkBuilder [main_model_config] dict_empty))).

(** The last line [main] prints when its body ends normally. *)
Definition main_last_line : line :=
  [FText "Check 'dimo_telemetry_data.json' for the full dataset.
"].

(** What [main] does with the dataset of step 6: step 7 and the closing
    lines. *)
Definition main_tail (dataset : pyobj) : M unit :=
  save_and_display_results dataset default_output_file ;;
  print_text ("
" +:+ banner) ;;
  print_text "✓ GENERATION COMPLETE!" ;;
  print_text banner ;;
  print_text "
Your DIMO telemetry dataset is ready!" ;;
  print_text "Check 'dimo_telemetry_data.json' for the full dataset.
".

(** The handle [main] creates in step 1 for a remote service. *)
Definition main_client (service : DataDesignerConfigBuilder -> Z -> result pyobj)
  : NeMoDataDesignerClient :=
  mkClient "http://localhost:8080" service.

(* ========================================================================= *)
(** * Properties *)

(* ------------------------------------------------------------------------- *)
(** ** Dictionaries *)

Section DictFacts.
Context {K : Type} `{EqDecision K} {V : Type}.
Implicit Types (d : dict K V) (k : K) (v : V).

Lemma dict_get_None_keys k d : dict_get k d = None <-> k ∉ dict_keys d.
Proof.
  induction d as [|[k' v'] d IH]; simpl.
  - split; [intros _; apply not_elem_of_nil | done].
  - rewrite not_elem_of_cons. destruct (decide (k = k')) as [->|Hne].
    + split; [done | intros [? _]; done].
    + rewrite IH. tauto.
Qed.

Lemma dict_set_fresh k v d : k ∉ dict_keys d -> dict_set k v d = d ++ [(k, v)].
Proof.
  induction d as [|[k' v'] d IH]; simpl; [done|].
  rewrite not_elem_of_cons. intros [Hne Hnot].
  destruct (decide (k = k')); [done|]. by rewrite IH.
Qed.

Lemma dict_get_set_eq k v d : dict_get k (dict_set k v d) = Some v.
Proof.
  induction d as [|[k' v'] d IH]; simpl.
  - by destruct (decide (k = k)).
  - destruct (decide (k = k')) as [->|Hne]; simpl.
    + by destruct (decide (k' = k')).
    + by destruct (decide (k = k')).
Qed.

Lemma dict_get_set_ne k k' v d :
  k <> k' -> dict_get k' (dict_set k v d) = dict_get k' d.
Proof.
  intros Hne. induction d as [|[k0 v0] d IH]; simpl.
  - destruct (decide (k' = k)); congruence.
  - destruct (decide (k = k0)) as [->|Hne0]; simpl.
    + destruct (decide (k' = k0)); congruence.
    + destruct (decide (k' = k0)); congruence.
Qed.

Lemma dict_keys_set k v d :
  dict_keys (dict_set k v d) =
  if dict_contains k d then dict_keys d else dict_keys d ++ [k].
Proof.
  unfold dict_contains. induction d as [|[k0 v0] d IH]; simpl; [done|].
  destruct (decide (k = k0)) as [->|Hne]; simpl; [done|].
  rewrite IH. by destruct (dict_get k d).
Qed.

(** Storing the items of a well-formed dictionary one by one, after the items
    already there, appends them in order. *)
Lemma fold_dict_set_fresh (items : list (K * V)) d :
  NoDup (dict_keys d ++ map fst items) ->
  fold_left (fun acc kv => dict_set (fst kv) (snd kv) acc) items d = d ++ items.
Proof.
  revert d. induction items as [|[k v] items IH]; intros d Hnd; simpl.
  - by rewrite app_nil_r.
  - simpl in Hnd. apply NoDup_app in Hnd as (Hd & Hdisj & Hitems).
    apply NoDup_cons in Hitems as [Hk Hitems].
    assert (Hfresh : k ∉ dict_keys d).
    { intros Hin. apply (Hdisj k Hin). left. }
    rewrite (dict_set_fresh k v d Hfresh), IH.
    + by rewrite <- app_assoc.
    + unfold dict_keys. rewrite map_app. simpl. rewrite <- app_assoc. simpl.
      apply NoDup_app. split; [done|]. split.
      * intros x Hx. rewrite not_elem_of_cons. split.
        -- intros ->. done.
        -- intros Hxi. apply (Hdisj x Hx). by right.
      * by apply NoDup_cons.
Qed.

Lemma dict_literal_wf (items : list (K * V)) :
  NoDup (map fst items) -> dict_literal items = items.
Proof.
  intros Hnd. unfold dict_literal. by rewrite fold_dict_set_fresh.
Qed.

(** A dictionary keeps pairwise distinct keys under every store. *)
Lemma dict_set_wf k v d : dict_wf d -> dict_wf (dict_set k v d).
Proof.
  unfold dict_wf. intros Hwf. rewrite dict_keys_set.
  unfold dict_contains. destruct (dict_get k d) eqn:Hg; [done|].
  apply dict_get_None_keys in Hg.
  apply NoDup_app. split; [done|]. split.
  - intros x Hx Hx'. apply list_elem_of_singleton in Hx'. by subst.
  - apply NoDup_singleton.
Qed.
End DictFacts.

(* ------------------------------------------------------------------------- *)
(** ** The taxonomy *)

Lemma categories_display_keys_NoDup : NoDup (map fst categories_display).
Proof. apply (bool_decide_unpack _). by vm_compute. Qed.

(** The dictionary holds the items of its display, in order. *)
Lemma dimo_categories_items : dimo_categories = categories_display.
Proof. apply dict_literal_wf, categories_display_keys_NoDup. Qed.

Lemma dimo_categories_wf : dict_wf dimo_categories.
Proof.
  unfold dict_wf, dict_keys. rewrite dimo_categories_items.
  apply categories_display_keys_NoDup.
Qed.

(** C5, as stated, fails: the category [environmental] has a single leaf, so
    not every category has between 3 and 8 of them. *)
Lemma taxonomy_shape_3_to_8_fails :
  ~ (length dimo_categories = 10%nat /\
     Forall (fun kv => (3 <= length (snd kv) <= 8)%nat) dimo_categories /\
     total_subcategories dimo_categories = 47%nat).
Proof.
  intros (_ & Hall & _). rewrite Forall_forall in Hall.
  assert (Hin : ("environmental", ["exterior_air_temperature"])
                ∈ dimo_categories).
  { rewrite dimo_categories_items. apply (bool_decide_unpack _). by vm_compute. }
  specialize (Hall _ Hin). simpl in Hall. lia.
Qed.

(** C5 (amended): the taxonomy has exactly 10 categories, every category has
    between 1 and 8 leaf subcategories, every category but [environmental]
    (which has 1) has between 3 and 8, and there are 47 leaves in total. *)
Theorem taxonomy_shape :
  length dimo_categories = 10%nat /\
  Forall (fun kv => (1 <= length (snd kv) <= 8)%nat) dimo_categories /\
  Forall (fun kv => fst kv <> "environmental" ->
                    (3 <= length (snd kv) <= 8)%nat) dimo_categories /\
  dict_get "environmental" dimo_categories = Some ["exterior_air_temperature"] /\
  total_subcategories dimo_categories = 47%nat.
Proof.
  rewrite dimo_categories_items. split; [reflexivity|].
  split; [|split; [|split; reflexivity]].
  - unfold categories_display. repeat constructor; simpl; lia.
  - unfold categories_display.
    repeat (constructor; [simpl; try lia; intros Hne; by contradict Hne|]).
    constructor.
Qed.

Lemma dict_get_Some_elem_of {V : Type} (k : string) (v : V) (d : dict string V) :
  dict_get k d = Some v -> (k, v) ∈ d.
Proof.
  induction d as [|[k' v'] d IH]; simpl; [done|].
  destruct (decide (k = k')) as [->|Hne].
  - intros [= ->]. left.
  - intros Hg. right. by apply IH.
Qed.

(** When no leaf is listed twice over the whole taxonomy, a leaf determines
    its category. *)
Lemma leaf_determines_category (d : dict string (list string)) :
  NoDup (concat (dict_values d)) ->
  forall c1 c2 subs1 subs2 s,
    (c1, subs1) ∈ d -> (c2, subs2) ∈ d -> s ∈ subs1 -> s ∈ subs2 -> c1 = c2.
Proof.
  induction d as [|[c l] d IH]; intros Hnd c1 c2 subs1 subs2 s H1 H2 Hs1 Hs2.
  - by apply elem_of_nil in H1.
  - simpl in Hnd. apply NoDup_app in Hnd as (_ & Hdisj & Hrest).
    assert (Hleaf : forall c' subs', (c', subs') ∈ d -> s ∈ subs' ->
                                     s ∈ concat (dict_values d)).
    { intros c' subs' Hin Hs. apply list_elem_of_In, in_concat.
      exists subs'. split; [|by apply list_elem_of_In].
      apply list_elem_of_In. unfold dict_values.
      apply (list_elem_of_fmap_2 snd) in Hin. exact Hin. }
    apply elem_of_cons in H1 as [[= -> ->]|H1];
      apply elem_of_cons in H2 as [[= -> ->]|H2].
    + done.
    + exfalso. apply (Hdisj s Hs1). by eapply Hleaf.
    + exfalso. apply (Hdisj s Hs2). by eapply Hleaf.
    + by eapply (IH Hrest).
Qed.

(** C6: the display of the taxonomy repeats no category key, no category
    lists a subcategory twice, and a subcategory listed under two category
    keys makes them the same key: every leaf belongs to exactly one
    category. *)
Theorem taxonomy_no_duplicates :
  NoDup (map fst categories_display) /\
  dict_wf dimo_categories /\
  Forall (fun kv => NoDup (snd kv)) dimo_categories /\
  NoDup (concat (dict_values dimo_categories)) /\
  (forall c1 c2 subs1 subs2 s,
     dict_get c1 dimo_categories = Some subs1 ->
     dict_get c2 dimo_categories = Some subs2 ->
     s ∈ subs1 -> s ∈ subs2 -> c1 = c2).
Proof.
  assert (Hleaves : NoDup (concat (dict_values dimo_categories))).
  { rewrite dimo_categories_items. apply (bool_decide_unpack _). by vm_compute. }
  split; [apply categories_display_keys_NoDup|].
  split; [apply dimo_categories_wf|].
  split; [|split; [exact Hleaves|]].
  - rewrite dimo_categories_items. unfold categories_display.
    repeat (constructor; [apply (bool_decide_unpack _); by vm_compute|]).
    constructor.
  - intros c1 c2 subs1 subs2 s H1 H2.
    apply (leaf_determines_category _ Hleaves);
      by apply dict_get_Some_elem_of.
Qed.

(* ------------------------------------------------------------------------- *)
(** ** Running the monad *)

(** Unfolds the sequencing of the monad and the primitive effects, leaving
    the run of a straight-line block as a pair of a world and a result. *)
Ltac run_monad :=
  cbv [mbind M_bind bind mret M_ret ret raise print_text print
       traceback_print_exc write_file client_preview].

(* ------------------------------------------------------------------------- *)
(** ** The request builder *)

Lemma build_subcategory_mapping_id (categories : dict string (list string)) :
  dict_wf categories -> build_subcategory_mapping categories = categories.
Proof.
  intros Hwf. unfold build_subcategory_mapping, dict_items.
  by rewrite fold_dict_set_fresh.
Qed.



(* ------------------------------------------------------------------------- *)
(** ** Generation and response normalization *)




Section Yields.
Context {A B : Type}.

Lemma yields_ret (a : A) : yields (mret a : M A) (Ret a).
Proof. by intros w. Qed.

Lemma yields_raise (e : exn) : yields (raise e : M A) (Raise e).
Proof. by intros w. Qed.

Lemma yields_bind (m : M A) (k : A -> M B) (a : A) (r : result B) :
  yields m (Ret a) -> yields (k a) r -> yields (m ≫= k) r.
Proof.
  intros Hm Hk w. unfold mbind, M_bind, bind.
  destruct (Hm w) as [Hres Hfiles]. destruct (m w) as [w1 res].
  simpl in *. subst res. destruct (Hk w1) as [Hres' Hfiles'].
  split; [done | congruence].
Qed.

Lemma yields_bind_raise (m : M A) (k : A -> M B) (e : exn) :
  yields m (Raise e) -> yields (m ≫= k) (Raise e).
Proof.
  intros Hm w. unfold mbind, M_bind, bind.
  destruct (Hm w) as [Hres Hfiles]. destruct (m w) as [w1 res].
  simpl in *. by subst res.
Qed.

Lemma yields_try_ret (body : M A) (handler : exn -> M A) (a : A) :
  yields body (Ret a) -> yields (try_except_Exception body handler) (Ret a).
Proof.
  intros Hm w. unfold try_except_Exception.
  destruct (Hm w) as [Hres Hfiles]. destruct (body w) as [w1 res].
  simpl in *. by subst res.
Qed.

Lemma yields_try_caught (body : M A) (handler : exn -> M A) (e : exn)
    (r : result A) :
  yields body (Raise e) -> isinstance_Exception e = true ->
  yields (handler e) r -> yields (try_except_Exception body handler) r.
Proof.
  intros Hm Hexc Hh w. unfold try_except_Exception.
  destruct (Hm w) as [Hres Hfiles]. destruct (body w) as [w1 res].
  simpl in *. subst res. rewrite Hexc. destruct (Hh w1) as [Hres' Hfiles'].
  split; [done | congruence].
Qed.
End Yields.

Lemma yields_print (l : line) : yields (print l) (Ret tt).
Proof. by intros w. Qed.

Lemma yields_print_text (s : string) : yields (print_text s) (Ret tt).
Proof. by intros w. Qed.

Lemma yields_traceback (e : exn) : yields (traceback_print_exc e) (Ret tt).
Proof. by intros w. Qed.

(** Steps over the prints at the head of a block. *)
Ltac yields_prints :=
  repeat first
    [ eapply yields_bind; [apply yields_print_text|]
    | eapply yields_bind; [apply yields_print|]
    | eapply yields_bind; [apply yields_traceback|] ].

(** The chain of [hasattr] tests selects the candidate [normalized] names and
    touches no file. *)
Lemma extract_dataset_yields (preview_result : pyobj) :
  yields (extract_dataset preview_result) (Ret (normalized preview_result)).
Proof.
  unfold extract_dataset, normalized, hasattr, py_getattr. simpl.
  destruct (getattr preview_result "dataset") as [d|].
  { eapply yields_bind; [apply yields_ret|]. yields_prints. apply yields_ret. }
  destruct (getattr preview_result "data") as [d|].
  { eapply yields_bind; [apply yields_ret|]. yields_prints. apply yields_ret. }
  destruct (is_iterable preview_result); yields_prints; apply yields_ret.
Qed.

(** What the diagnostics after the selection do with a candidate: a null or
    tabular candidate gets through, any other one raises an [Exception]. *)
Lemma candidate_diagnostics (dataset : pyobj) :
  exists r,
    yields
      (if negb (is_None dataset) then
         print [FText "✓ Dataset type: "; FType dataset] ;;
         n ← py_len dataset;
         print_text ("✓ Successfully generated " +:+ str_nat n +:+ " samples!") ;;
         print_text "
First sample:" ;;
         first ← py_head dataset 1;
         print [FShow first]
       else
         print_text "❌ Could not extract dataset from preview_result") r /\
    (if is_None dataset || tabular dataset
     then r = Ret tt
     else exists e, r = Raise e /\ isinstance_Exception e = true).
Proof.
  destruct dataset as [|df|col|items|attrs]; simpl.
  - exists (Ret tt). split; [apply yields_print_text | done].
  - exists (Ret tt). split; [|done]. yields_prints.
    eapply yields_bind; [apply yields_ret|]. yields_prints.
    eapply yields_bind; [apply yields_ret|]. apply yields_print.
  - exists (Ret tt). split; [|done]. yields_prints.
    eapply yields_bind; [apply yields_ret|]. yields_prints.
    eapply yields_bind; [apply yields_ret|]. apply yields_print.
  - eexists. split.
    + yields_prints. eapply yields_bind; [apply yields_ret|]. yields_prints.
      apply yields_bind_raise, yields_raise.
    + by eexists.
  - eexists. split.
    + yields_prints. apply yields_bind_raise, yields_raise.
    + by eexists.
Qed.

Lemma yields_run {A} (m : M A) (r : result A) (w : World) :
  yields m r -> exists w', m w = (w', r) /\ files w' = files w.
Proof.
  intros Hm. destruct (Hm w) as [Hres Hfiles]. exists (fst (m w)).
  split; [|done]. destruct (m w) as [w1 res]. simpl in *. by subst.
Qed.

Lemma yields_client_preview (client : NeMoDataDesignerClient)
    (config_builder : DataDesignerConfigBuilder) (n : Z) :
  yields (client_preview client config_builder n)
         (preview client config_builder n).
Proof. by intros w. Qed.

(** The body of the [try] on a non-null preview result. *)
Lemma generate_try_yields (client : NeMoDataDesignerClient)
    (config_builder : DataDesignerConfigBuilder) (num_samples : Z)
    (preview_result : pyobj) :
  preview client config_builder num_samples = Ret preview_result ->
  preview_result <> PyNone ->
  exists r,
    yields (generate_try client config_builder num_samples) r /\
    (if is_None (normalized preview_result) || tabular (normalized preview_result)
     then r = Ret (normalized preview_result)
     else exists e, r = Raise e /\ isinstance_Exception e = true).
Proof.
  intros Hcall Hnn.
  destruct (candidate_diagnostics (normalized preview_result))
    as (r0 & Hdiag & Hr0).
  assert (His : is_None preview_result = false) by (by destruct preview_result).
  destruct (is_None (normalized preview_result)
            || tabular (normalized preview_result)).
  - subst r0. eexists. split; [|reflexivity].
    unfold generate_try. yields_prints.
    eapply yields_bind; [rewrite <- Hcall; apply yields_client_preview|].
    yields_prints. rewrite His.
    eapply yields_bind; [apply extract_dataset_yields|].
    eapply yields_bind; [exact Hdiag|]. apply yields_ret.
  - destruct Hr0 as (e & -> & Hexc). exists (Raise e). split; [|by exists e].
    unfold generate_try. yields_prints.
    eapply yields_bind; [rewrite <- Hcall; apply yields_client_preview|].
    yields_prints. rewrite His.
    eapply yields_bind; [apply extract_dataset_yields|].
    apply yields_bind_raise. exact Hdiag.
Qed.




(* ------------------------------------------------------------------------- *)
(** ** Computations that write no file *)

Section KeepsFiles.
Context {A B : Type}.

Lemma keeps_files_ret (a : A) : keeps_files (mret a : M A).
Proof. by intros w. Qed.

Lemma keeps_files_raise (e : exn) : keeps_files (raise e : M A).
Proof. by intros w. Qed.

Lemma keeps_files_bind (m : M A) (k : A -> M B) :
  keeps_files m -> (forall a, keeps_files (k a)) -> keeps_files (m ≫= k).
Proof.
  intros Hm Hk w. unfold mbind, M_bind, bind.
  specialize (Hm w). destruct (m w) as [w' [a|e]]; simpl in *.
  - by rewrite Hk.
  - done.
Qed.
End KeepsFiles.

Lemma keeps_files_print (l : line) : keeps_files (print l).
Proof. by intros w. Qed.

Lemma keeps_files_print_text (s : string) : keeps_files (print_text s).
Proof. by intros w. Qed.


Lemma keeps_files_record_getitem (sample : record) (key : string) :
  keeps_files (record_getitem sample key).
Proof.
  unfold record_getitem. destruct (dict_get key sample);
    [apply keeps_files_ret | apply keeps_files_raise].
Qed.

Create HintDb keeps_files.
#[local] Hint Resolve keeps_files_ret keeps_files_raise keeps_files_print
  keeps_files_print_text keeps_files_record_getitem : keeps_files.

Ltac keeps_files :=
  repeat first
    [ apply keeps_files_bind; [|intros ?]
    | solve [auto with keeps_files] ].





(* ------------------------------------------------------------------------- *)
(** ** The save step on a frame of valid rows *)

Lemma series_lookup_valid (ls : list string) (cs : list cell) (name : string) :
  name ∈ ls -> length cs = length ls ->
  exists c, series_lookup ls cs name = Some c.
Proof.
  revert cs. induction ls as [|l ls IH]; intros cs Hin Hlen.
  - by apply elem_of_nil in Hin.
  - destruct cs as [|c cs]; [done|]. simpl.
    destruct (decide (name = l)); [by eexists|].
    apply elem_of_cons in Hin as [?|Hin]; [done|].
    apply IH; [done|]. simpl in Hlen. lia.
Qed.

Lemma row_getitem_valid (df : DataFrame) (r : Z * list cell) (name : string)
    (w : World) :
  name ∈ columns df -> length (snd r) = length (columns df) ->
  row_getitem (mkSeries (columns df) (snd r)) name w
    = (w, Ret (scalar_of_cell (cell_at df r name))).
Proof.
  intros Hin Hlen. unfold row_getitem, getitem, cell_at. simpl.
  destruct (series_lookup_valid _ _ _ Hin Hlen) as [c ->]. done.
Qed.




(* ------------------------------------------------------------------------- *)
(** ** Text *)









(* ------------------------------------------------------------------------- *)
(** ** Strings are read back as they were written *)





(* ------------------------------------------------------------------------- *)
(** ** Integers are read back as they were written *)







(* ------------------------------------------------------------------------- *)
(** ** Scalars are read back as they were written *)






(* ------------------------------------------------------------------------- *)
(** ** Records are read back as they were written *)




















(* ------------------------------------------------------------------------- *)
(** ** Lists of records are read back as they were written *)











(* ------------------------------------------------------------------------- *)
(** ** The records of a frame *)




(* ------------------------------------------------------------------------- *)
(** ** What the save step writes *)




(** C3: given the null dataset or a frame without rows, the save step
    returns normally and leaves every file as it was. *)
Theorem save_nothing_to_save (dataset : pyobj) (output_file : string)
    (w : World) :
  dataset = PyNone \/ (exists df, dataset = PyFrame df /\ rows df = []) ->
  exists w',
    save_and_display_results dataset output_file w = (w', Ret tt) /\
    files w' = files w.
Proof.
  intros [->|(df & -> & Hrows)].
  - by eexists.
  - unfold save_and_display_results. cbv [is_None py_len].
    cbv [mbind M_bind bind mret M_ret ret print_text print].
    rewrite Hrows. by eexists.
Qed.

Lemma save_nothing_to_save_witness :
  (exists w',
     save_and_display_results PyNone default_output_file empty_world
       = (w', Ret tt) /\ files w' = ∅) /\
  (exists w',
     save_and_display_results
       (PyFrame (mkFrame ["category"; "subcategory"; "telemetry_value"] []))
       default_output_file empty_world = (w', Ret tt) /\ files w' = ∅).
Proof.
  split.
  - apply (save_nothing_to_save PyNone default_output_file empty_world).
    left. reflexivity.
  - apply (save_nothing_to_save
             (PyFrame (mkFrame ["category"; "subcategory"; "telemetry_value"] []))
             default_output_file empty_world).
    right. eexists. split; reflexivity.
Defined.













(* ========================================================================= *)
(** * Further properties of the steps *)

(* ------------------------------------------------------------------------- *)
(** ** More on running the monad *)

Lemma run_pair {A} (m : M A) (w : World) : m w = (fst (m w), snd (m w)).
Proof. by destruct (m w). Qed.

(** A block that writes no file and returns [a] hands over to what follows
    in a world with the same files. *)
Lemma yields_bind_run {A B} (m : M A) (k : A -> M B) (a : A) (w : World) :
  yields m (Ret a) ->
  exists w1, (m ≫= k) w = k a w1 /\ files w1 = files w.
Proof.
  intros Hm. destruct (Hm w) as [Hres Hfiles]. exists (fst (m w)).
  split; [|done]. unfold mbind, M_bind, bind.
  rewrite (run_pair m w), Hres. done.
Qed.

Section Succeeds.
Context {A B : Type}.



End Succeeds.





Lemma ends_printing_print (l : line) : ends_printing (print l) l.
Proof. intros w. simpl. apply last_snoc. Qed.

Lemma ends_printing_print_text (s : string) :
  ends_printing (print_text s) [FText s].
Proof. apply ends_printing_print. Qed.

Lemma ends_printing_bind {A B} (m : M A) (k : A -> M B) (a : A) (l : line) :
  yields m (Ret a) -> ends_printing (k a) l -> ends_printing (m ≫= k) l.
Proof.
  intros Hm Hk w. destruct (yields_bind_run m k a w Hm) as (w1 & -> & _).
  apply Hk.
Qed.

(* ------------------------------------------------------------------------- *)
(** ** The generation step, for every answer of the remote call *)

Lemma yields_try_uncaught {A} (body : M A) (handler : exn -> M A) (e : exn) :
  yields body (Raise e) -> isinstance_Exception e = false ->
  yields (try_except_Exception body handler) (Raise e).
Proof.
  intros Hm Hexc w. unfold try_except_Exception.
  destruct (Hm w) as [Hres Hfiles]. destruct (body w) as [w1 res].
  simpl in *. subst res. by rewrite Hexc.
Qed.

(** What the generation step ends with, from the answer of the remote call. *)
Lemma generate_yields (client : NeMoDataDesignerClient)
    (config_builder : DataDesignerConfigBuilder) (num_samples : Z) :
  yields (generate_dimo_dataset client config_builder num_samples)
    match preview client config_builder num_samples with
    | Raise e => if isinstance_Exception e then Ret PyNone else Raise e
    | Ret preview_result =>
        Ret (if tabular (normalized preview_result)
             then normalized preview_result else PyNone)
    end.
Proof.
  destruct (preview client config_builder num_samples) as [r|e] eqn:Hcall.
  - assert (r = PyNone \/ r <> PyNone) as [->|Hnn]
      by (destruct r; [by left | by right ..]).
    + unfold generate_dimo_dataset. yields_prints. apply yields_try_ret.
      unfold generate_try. yields_prints.
      eapply yields_bind; [rewrite <- Hcall; apply yields_client_preview|].
      yields_prints. apply yields_ret.
    + destruct (generate_try_yields client config_builder num_samples r
                  Hcall Hnn) as (res & Htry & Hres).
      unfold generate_dimo_dataset. yields_prints.
      destruct (normalized r) as [|df|col|items|attrs]; simpl in Hres |- *.
      * subst res. by apply yields_try_ret.
      * subst res. by apply yields_try_ret.
      * subst res. by apply yields_try_ret.
      * destruct Hres as (e & -> & Hexc).
        eapply yields_try_caught; [exact Htry | exact Hexc |].
        yields_prints. apply yields_ret.
      * destruct Hres as (e & -> & Hexc).
        eapply yields_try_caught; [exact Htry | exact Hexc |].
        yields_prints. apply yields_ret.
  - assert (Htry : yields (generate_try client config_builder num_samples)
                          (Raise e)).
    { unfold generate_try. yields_prints. apply yields_bind_raise.
      rewrite <- Hcall. apply yields_client_preview. }
    unfold generate_dimo_dataset. yields_prints.
    destruct (isinstance_Exception e) eqn:Hexc.
    + eapply yields_try_caught; [exact Htry | exact Hexc |].
      yields_prints. apply yields_ret.
    + by apply yields_try_uncaught.
Qed.

(** X1: whatever the remote call answers, the generation step writes no
    file and ends in one of two ways: it returns a dataset that is null or
    supports [len] and [head], or it raises the exception of the remote call,
    and this only when that exception is not an instance of [Exception]. *)
Theorem generation_outcomes (client : NeMoDataDesignerClient)
    (config_builder : DataDesignerConfigBuilder) (num_samples : Z)
    (w : World) :
  exists w',
    files w' = files w /\
    ((exists dataset,
        generate_dimo_dataset client config_builder num_samples w
          = (w', Ret dataset) /\
        (dataset = PyNone \/ tabular dataset = true)) \/
     (exists e,
        generate_dimo_dataset client config_builder num_samples w
          = (w', Raise e) /\
        preview client config_builder num_samples = Raise e /\
        isinstance_Exception e = false)).
Proof.
  destruct (yields_run _ _ w
              (generate_yields client config_builder num_samples))
    as (w' & Hrun & Hfiles).
  exists w'. split; [done|].
  destruct (preview client config_builder num_samples) as [r|e].
  - left. eexists. split; [exact Hrun|].
    destruct (tabular (normalized r)) eqn:Htab; [by right | by left].
  - destruct (isinstance_Exception e) eqn:Hexc.
    + left. eexists. split; [exact Hrun | by left].
    + right. by exists e.
Qed.

(** X2: when the remote call answers with the null value, the generation
    step returns the null dataset, prints that the result is null as its last
    line, and writes no file. *)
Theorem generation_of_null_preview (client : NeMoDataDesignerClient)
    (config_builder : DataDesignerConfigBuilder) (num_samples : Z)
    (w : World) :
  preview client config_builder num_samples = Ret PyNone ->
  exists w',
    generate_dimo_dataset client config_builder num_samples w
      = (w', Ret PyNone) /\
    last (stdout w') = Some [FText "❌ preview_result is None!"] /\
    files w' = files w.
Proof.
  intros Hcall.
  unfold generate_dimo_dataset, try_except_Exception, generate_try. run_monad.
  rewrite Hcall. cbv beta iota. simpl is_None. cbv iota.
  eexists. split; [reflexivity|]. simpl. split; [|done].
  by rewrite last_snoc.
Qed.

Lemma generation_of_null_preview_witness :
  exists w',
    generate_dimo_dataset
      (mkClient "http://localhost:8080" (constant_service (Ret PyNone)))
      (mkBuilder [] dict_empty) 10 empty_world = (w', Ret PyNone) /\
    last (stdout w') = Some [FText "❌ preview_result is None!"] /\
    files w' = ∅.
Proof.
  apply (generation_of_null_preview
           (mkClient "http://localhost:8080" (constant_service (Ret PyNone)))
           (mkBuilder [] dict_empty) 10 empty_world).
  reflexivity.
Defined.

(* ------------------------------------------------------------------------- *)
(** ** The save step, for every dataset *)






(** The three lines of the heading of the save step change no file. *)
Lemma save_heading (dataset : pyobj) (output_file : string) (w : World) :
  exists w1,
    files w1 = files w /\
    save_and_display_results dataset output_file w =
      (if is_None dataset then
         print_text "❌ No dataset to save - dataset is None" ;; mret tt
       else
         n ← py_len dataset;
         if (n =? 0)%nat then
           print_text "❌ Dataset is empty - no records generated" ;; mret tt
         else
           items ← py_iterrows dataset;
           data_list ← collect_records dataset items [];
           write_file output_file (json_dumps (json_of_data_list data_list)) ;;
           print_text ("✓ Dataset saved to: " +:+ output_file) ;;
           display_results data_list) w1.
Proof. eexists. split; [|reflexivity]. done. Qed.


Lemma series_lookup_missing (ls : list string) (cs : list cell) (name : string) :
  name ∉ ls -> series_lookup ls cs name = None.
Proof.
  revert cs. induction ls as [|l ls IH]; intros cs Hnot; [done|].
  destruct cs as [|c cs]; [done|]. simpl.
  apply not_elem_of_cons in Hnot as [Hne Hnot].
  destruct (decide (name = l)); [done | by apply IH].
Qed.

Lemma row_getitem_missing (ls : list string) (cs : list cell) (name : string)
    (w : World) :
  name ∉ ls ->
  row_getitem (mkSeries ls cs) name w
    = (w, Raise (mkExn KeyError ("'" +:+ name +:+ "'"))).
Proof.
  intros Hnot. unfold row_getitem, getitem. simpl.
  by rewrite series_lookup_missing.
Qed.

(** X4: on a frame with at least one row that lacks the [category] or the
    [subcategory] column, the save step raises [KeyError] for the first of
    the two that is missing, at the first row, and writes no file. *)
Theorem save_missing_column (df : DataFrame) (output_file : string)
    (w : World) :
  rows df <> [] ->
  Forall (fun r => length (snd r) = length (columns df)) (rows df) ->
  "category" ∉ columns df \/ "subcategory" ∉ columns df ->
  exists w',
    save_and_display_results (PyFrame df) output_file w
      = (w', Raise (mkExn KeyError
                      (if bool_decide ("category" ∈ columns df)
                       then "'subcategory'" else "'category'"))) /\
    files w' = files w.
Proof.
  intros Hne Hrows Hmissing.
  destruct (save_heading (PyFrame df) output_file w) as (w1 & Hfiles1 & ->).
  cbv [is_None py_len py_iterrows iterrows].
  cbv [mbind M_bind bind mret M_ret ret print_text print write_file].
  destruct (rows df) as [|r rs]; [done|].
  cbn [length Nat.eqb map collect_records fst snd].
  apply Forall_cons in Hrows as [Hr _].
  unfold make_record. cbv [mbind M_bind bind].
  destruct (bool_decide ("category" ∈ columns df)) eqn:Hcat.
  - apply bool_decide_eq_true in Hcat.
    destruct Hmissing as [Hmissing|Hmissing]; [done|].
    rewrite (row_getitem_valid df r "category" w1 Hcat Hr).
    rewrite (row_getitem_missing _ _ "subcategory" w1 Hmissing).
    by exists w1.
  - apply bool_decide_eq_false in Hcat.
    rewrite (row_getitem_missing _ _ "category" w1 Hcat).
    by exists w1.
Qed.

Lemma save_missing_column_witness :
  exists w',
    save_and_display_results (PyFrame uncategorized_frame) default_output_file
      empty_world = (w', Raise (mkExn KeyError "'category'")) /\
    files w' = ∅.
Proof.
  apply (save_missing_column uncategorized_frame default_output_file
           empty_world).
  - discriminate.
  - unfold uncategorized_frame. simpl. repeat constructor.
  - left. unfold uncategorized_frame. simpl.
    apply (bool_decide_unpack _). by vm_compute.
Defined.

(** X5: a dataset that is not a frame is never written.  An empty list
    returns normally, like an empty frame; a non-empty list, which has no
    [iterrows], raises [AttributeError]; an object without [len] raises
    [TypeError]. *)
Theorem save_rejects_other_datasets (output_file : string) (w : World) :
  (exists w',
     save_and_display_results (PyList []) output_file w = (w', Ret tt) /\
     files w' = files w) /\
  (forall item items,
     exists w' e,
       save_and_display_results (PyList (item :: items)) output_file w
         = (w', Raise e) /\
       exn_class e = AttributeError /\ files w' = files w) /\
  (forall attrs,
     exists w' e,
       save_and_display_results (PyInstance attrs) output_file w
         = (w', Raise e) /\
       exn_class e = TypeError /\ files w' = files w).
Proof.
  split; [by eexists|]. split.
  - intros item items. by eexists _, _.
  - intros attrs. by eexists _, _.
Qed.

(* ------------------------------------------------------------------------- *)
(** ** The frequency count of the categories *)

Lemma sum_values_dict_set (k : scalar) (counts : dict scalar nat) :
  sum_list (dict_values
              (dict_set k (default 0%nat (dict_get k counts) + 1)%nat counts))
  = (sum_list (dict_values counts) + 1)%nat.
Proof.
  unfold dict_values.
  induction counts as [|[k' n] counts IH]; simpl; [done|].
  destruct (decide (k = k')) as [->|Hne]; simpl; [lia|].
  rewrite IH. lia.
Qed.

Lemma category_count_cons (k : scalar) (r : record) (data_list : list record) :
  category_count k (r :: data_list)
  = ((if decide (dict_get "category" r = Some k) then 1 else 0)
     + category_count k data_list)%nat.
Proof.
  unfold category_count. rewrite filter_cons.
  by destruct (decide (dict_get "category" r = Some k)).
Qed.

(** The loop of the frequency count, from any counts so far. *)
Lemma count_categories_from (data_list : list record)
    (category_counts : dict scalar nat) :
  Forall (fun r => is_Some (dict_get "category" r)) data_list ->
  dict_wf category_counts ->
  exists counts,
    (forall w, count_categories data_list category_counts w = (w, Ret counts)) /\
    dict_wf counts /\
    (forall k, default 0%nat (dict_get k counts)
               = (default 0%nat (dict_get k category_counts)
                  + category_count k data_list)%nat) /\
    sum_list (dict_values counts)
      = (sum_list (dict_values category_counts) + length data_list)%nat /\
    ((forall k n, dict_get k category_counts = Some n -> (0 < n)%nat) ->
     (forall k n, dict_get k counts = Some n -> (0 < n)%nat)).
Proof.
  intros Hcat. revert category_counts.
  induction Hcat as [|r data_list [c Hc] Hrest IH]; intros acc Hwf.
  - exists acc. split; [done|]. split; [done|].
    split; [intros k; unfold category_count; simpl; lia|].
    split; [simpl; lia | done].
  - set (acc' := dict_set c (default 0%nat (dict_get c acc) + 1)%nat acc).
    destruct (IH acc' (dict_set_wf _ _ _ Hwf))
      as (counts & Hrun & Hwf' & Hget & Hsum & Hpos).
    exists counts. split.
    { intros w. simpl. unfold mbind, M_bind, bind, record_getitem.
      rewrite Hc. apply Hrun. }
    split; [done|]. split.
    { intros k. rewrite Hget, category_count_cons, Hc. unfold acc'.
      destruct (decide (Some c = Some k)) as [[= ->]|Hne].
      - rewrite dict_get_set_eq. simpl. lia.
      - rewrite dict_get_set_ne by congruence. lia. }
    split.
    { rewrite Hsum. unfold acc'. rewrite sum_values_dict_set. simpl. lia. }
    intros Hacc. apply Hpos. intros k n. unfold acc'.
    destruct (decide (c = k)) as [->|Hne].
    + rewrite dict_get_set_eq. intros [= <-]. lia.
    + rewrite dict_get_set_ne by done. apply Hacc.
Qed.


(** X6: the frequency count over a list of records that all have a category
    ends normally without touching the world; the counts have one entry per
    category that occurs, each entry is the number of records of that
    category, and the entries add up to the number of records. *)
Theorem category_counts_correct (data_list : list record) :
  Forall (fun r => is_Some (dict_get "category" r)) data_list ->
  exists counts,
    (forall w, count_categories data_list dict_empty w = (w, Ret counts)) /\
    dict_wf counts /\
    (forall k, default 0%nat (dict_get k counts) = category_count k data_list) /\
    (forall k, k ∈ dict_keys counts <-> (0 < category_count k data_list)%nat) /\
    sum_list (dict_values counts) = length data_list.
Proof.
  intros Hcat.
  destruct (count_categories_from data_list dict_empty Hcat)
    as (counts & Hrun & Hwf & Hget & Hsum & Hpos); [apply NoDup_nil_2|].
  exists counts. split; [done|]. split; [done|].
  split; [intros k; by rewrite Hget|]. split; [|by rewrite Hsum].
  intros k. specialize (Hget k). simpl in Hget.
  destruct (dict_get k counts) as [n|] eqn:Hk.
  - assert (0 < n)%nat by (by eapply Hpos). simpl in Hget. split.
    + intros _. lia.
    + intros _. apply dec_stable. intros Hnot.
      apply dict_get_None_keys in Hnot. congruence.
  - simpl in Hget. split.
    + intros Hin. by apply dict_get_None_keys in Hk.
    + lia.
Qed.

Lemma category_counts_correct_witness :
  exists counts,
    (forall w, count_categories (records_of_frame sample_frame) dict_empty w
               = (w, Ret counts)) /\
    dict_wf counts /\
    (forall k, default 0%nat (dict_get k counts)
               = category_count k (records_of_frame sample_frame)) /\
    (forall k, k ∈ dict_keys counts
               <-> (0 < category_count k (records_of_frame sample_frame))%nat) /\
    sum_list (dict_values counts) = length (records_of_frame sample_frame).
Proof.
  apply (category_counts_correct (records_of_frame sample_frame)).
  unfold records_of_frame, sample_frame. simpl.
  repeat constructor; by eexists.
Defined.

(* ------------------------------------------------------------------------- *)
(** ** Sorting the counts *)








(* ------------------------------------------------------------------------- *)
(** ** The summary after the write *)

















(* ------------------------------------------------------------------------- *)
(** ** The request builder, steps 4 and 5 together *)

Lemma create_columns_yields (config_builder : DataDesignerConfigBuilder)
    (categories : dict string (list string)) (model_alias : string) :
  yields
    (create_category_subcategory_columns config_builder categories model_alias)
    (Ret (add_column
            (SamplerColumnConfig "subcategory" SUBCATEGORY
               (SubcategorySamplerParams "category"
                  (build_subcategory_mapping categories)))
            (add_column
               (SamplerColumnConfig "category" CATEGORY
                  (CategorySamplerParams (dict_keys categories)))
               config_builder))).
Proof.
  unfold create_category_subcategory_columns. yields_prints. apply yields_ret.
Qed.

Lemma add_telemetry_yields (config_builder : DataDesignerConfigBuilder)
    (model_alias : string) :
  yields (add_telemetry_value_column config_builder model_alias)
    (Ret (add_column
            (LLMTextColumn "telemetry_value" "llm-text" model_alias
                           telemetry_prompt)
            config_builder)).
Proof.
  unfold add_telemetry_value_column. yields_prints. apply yields_ret.
Qed.


(* ------------------------------------------------------------------------- *)
(** ** The main pipeline *)

Lemma yields_for_each {A} (xs : list A) (body : A -> M unit) :
  (forall x, yields (body x) (Ret tt)) -> yields (for_each xs body) (Ret tt).
Proof.
  intros Hbody. induction xs as [|x xs IH]; simpl.
  - apply yields_ret.
  - eapply yields_bind; [apply Hbody | exact IH].
Qed.

Lemma initialize_yields (service : DataDesignerConfigBuilder -> Z -> result pyobj) :
  yields (initialize_nemo_client service) (Ret (main_client service)).
Proof. unfold initialize_nemo_client. yields_prints. apply yields_ret. Qed.

Lemma setup_yields :
  yields setup_model_configuration
         (Ret (mkBuilder [main_model_config] dict_empty, "nemotron-nano-v3")).
Proof. unfold setup_model_configuration. yields_prints. apply yields_ret. Qed.

Lemma define_yields : yields define_dimo_categories (Ret dimo_categories).
Proof.
  unfold define_dimo_categories.
  do 3 (eapply yields_bind; [apply yields_print_text|]). cbv zeta.
  eapply yields_bind; [apply yields_print_text|].
  eapply yields_bind;
    [apply yields_for_each; intros item; apply yields_print_text|].
  eapply yields_bind; [apply yields_print_text|]. apply yields_ret.
Qed.

(** Steps 1 to 5 of [main] write no file and lead to the generation step,
    called on the client of the service with the builder [main_request] and
    10 rows. *)
Lemma main_reaches_generation
    (service : DataDesignerConfigBuilder -> Z -> result pyobj) (w : World) :
  exists w1,
    files w1 = files w /\
    main_try service w
    = (generate_dimo_dataset (main_client service) main_request 10
         ≫= main_tail) w1.
Proof.
  unfold main_try.
  destruct (yields_bind_run _
              (fun client =>
                 p ← setup_model_configuration;
                 let config_builder := fst p in
                 let model_alias := snd p in
                 categories ← define_dimo_categories;
                 config_builder ←
                   create_category_subcategory_columns config_builder
                     categories model_alias;
                 config_builder ←
                   add_telemetry_value_column config_builder model_alias;
                 dataset ← generate_dimo_dataset client config_builder 10;
                 main_tail dataset)
              _ w (initialize_yields service)) as (w1 & Hrun1 & Hfiles1).
  destruct (yields_bind_run _
              (fun p : DataDesignerConfigBuilder * string =>
                 let config_builder := fst p in
                 let model_alias := snd p in
                 categories ← define_dimo_categories;
                 config_builder ←
                   create_category_subcategory_columns config_builder
                     categories model_alias;
                 config_builder ←
                   add_telemetry_value_column config_builder model_alias;
                 dataset ← generate_dimo_dataset (main_client service)
                             config_builder 10;
                 main_tail dataset)
              _ w1 setup_yields) as (w2 & Hrun2 & Hfiles2).
  destruct (yields_bind_run _
              (fun categories =>
                 config_builder ←
                   create_category_subcategory_columns
                     (mkBuilder [main_model_config] dict_empty)
                     categories "nemotron-nano-v3";
                 config_builder ←
                   add_telemetry_value_column config_builder "nemotron-nano-v3";
                 dataset ← generate_dimo_dataset (main_client service)
                             config_builder 10;
                 main_tail dataset)
              _ w2 define_yields) as (w3 & Hrun3 & Hfiles3).
  destruct (yields_bind_run _
              (fun config_builder =>
                 config_builder ←
                   add_telemetry_value_column config_builder "nemotron-nano-v3";
                 dataset ← generate_dimo_dataset (main_client service)
                             config_builder 10;
                 main_tail dataset)
              _ w3 (create_columns_yields
                      (mkBuilder [main_model_config] dict_empty)
                      dimo_categories "nemotron-nano-v3"))
    as (w4 & Hrun4 & Hfiles4).
  destruct (yields_bind_run _
              (fun config_builder =>
                 dataset ← generate_dimo_dataset (main_client service)
                             config_builder 10;
                 main_tail dataset)
              _ w4 (add_telemetry_yields
                      (add_column
                         (SamplerColumnConfig "subcategory" SUBCATEGORY
                            (SubcategorySamplerParams "category"
                               (build_subcategory_mapping dimo_categories)))
                         (add_column
                            (SamplerColumnConfig "category" CATEGORY
                               (CategorySamplerParams (dict_keys dimo_categories)))
                            (mkBuilder [main_model_config] dict_empty)))
                      "nemotron-nano-v3"))
    as (w5 & Hrun5 & Hfiles5).
  exists w5. split; [congruence|].
  etrans; [exact Hrun1|]. etrans; [exact Hrun2|]. etrans; [exact Hrun3|].
  etrans; [exact Hrun4|]. exact Hrun5.
Qed.

Lemma save_null_yields (output_file : string) :
  yields (save_and_display_results PyNone output_file) (Ret tt).
Proof.
  unfold save_and_display_results. yields_prints. simpl is_None.
  yields_prints. apply yields_ret.
Qed.

(** The closing lines of [main], after the save step returned. *)
Lemma closing_lines (dataset : pyobj) (w w1 : World) :
  save_and_display_results dataset default_output_file w = (w1, Ret tt) ->
  exists w2,
    main_tail dataset w = (w2, Ret tt) /\
    files w2 = files w1 /\
    last (stdout w2) = Some main_last_line.
Proof.
  intros Hsave. unfold main_tail. unfold mbind at 1, M_bind at 1, bind at 1.
  rewrite Hsave. cbv beta iota.
  match goal with
  | |- exists w2, ?block w1 = _ /\ _ =>
      assert (Hy : yields block (Ret tt))
        by (yields_prints; apply yields_print_text);
      assert (He : ends_printing block main_last_line)
        by (repeat (eapply ends_printing_bind; [apply yields_print_text|]);
            apply ends_printing_print_text);
      destruct (Hy w1) as [Hres Hfiles]; specialize (He w1);
      exists (fst (block w1))
  end.
  split; [|done]. rewrite <- Hres. apply run_pair.
Qed.


(** [main] ends as its body does: a normal end is kept, an exception is
    raised again, after the troubleshooting lines when it is an
    [Exception]. *)
Lemma main_result
    (service : DataDesignerConfigBuilder -> Z -> result pyobj) (w : World) :
  exists w1,
    files w1 = files w /\
    forall w2 res,
      (generate_dimo_dataset (main_client service) main_request 10
         ≫= main_tail) w1 = (w2, res) ->
      exists w3,
        main service w = (w3, res) /\
        files w3 = files w2 /\
        (res = Ret tt -> w3 = w2) /\
        (forall e, res = Raise e -> isinstance_Exception e = true ->
           last (stdout w3)
           = Some [FText "4. Review error message above for specific issues
"]).
Proof.
  set (body := generate_dimo_dataset (main_client service) main_request 10
                 ≫= main_tail).
  unfold main. cbv [mbind M_bind bind print_text print].
  unfold try_except_Exception.
  match goal with
  | |- context [main_try service ?W] =>
      destruct (main_reaches_generation service W) as (w1 & Hfiles & ->)
  end.
  fold body.
  exists w1. split; [exact Hfiles|]. intros w2 res ->.
  destruct res as [[]|e].
  - exists w2. split; [done|]. split; [done|]. split; [done|]. by intros e [=].
  - destruct (isinstance_Exception e) eqn:Hexc.
    + eexists. split; [reflexivity|]. split; [reflexivity|].
      split; [by intros [=]|]. intros e' [= <-] _. simpl. apply last_snoc.
    + exists w2. split; [done|]. split; [done|]. split; [by intros [=]|].
      intros e' [= <-]. congruence.
Qed.

(** X10: when the remote call, asked for 10 rows of the schema of [main],
    fails with an [Exception], [main] still ends normally: no file is
    written, and the last line printed tells the user to check the output
    file. *)
Theorem main_after_failed_generation
    (service : DataDesignerConfigBuilder -> Z -> result pyobj) (w : World)
    (e : exn) :
  service main_request 10 = Raise e ->
  isinstance_Exception e = true ->
  exists w',
    main service w = (w', Ret tt) /\
    files w' = files w /\
    last (stdout w') = Some main_last_line.
Proof.
  intros Hcall Hexc.
  destruct (main_result service w) as (w1 & Hfiles1 & Hmain).
  pose proof (generate_yields (main_client service) main_request 10) as Hgen.
  unfold main_client in Hgen. simpl preview in Hgen.
  rewrite Hcall, Hexc in Hgen.
  destruct (yields_bind_run _ main_tail _ w1 Hgen) as (w2 & Hrun & Hfiles2).
  destruct (yields_run _ _ w2 (save_null_yields default_output_file))
    as (w3 & Hsave & Hfiles3).
  destruct (closing_lines PyNone w2 w3 Hsave) as (w4 & Htail & Hfiles4 & Hlast).
  destruct (Hmain w4 (Ret tt)) as (w5 & Hrun5 & Hfiles5 & Hsame & _).
  { unfold main_client. by rewrite Hrun. }
  exists w5. split; [done|]. rewrite (Hsame eq_refl).
  split; [congruence | done].
Qed.

Lemma main_after_failed_generation_witness :
  exists w',
    main (constant_service
            (Raise (mkExn (OtherException "ConnectionError") "refused")))
         empty_world = (w', Ret tt) /\
    files w' = ∅ /\
    last (stdout w') = Some main_last_line.
Proof.
  apply (main_after_failed_generation
           (constant_service
              (Raise (mkExn (OtherException "ConnectionError") "refused")))
           empty_world
           (mkExn (OtherException "ConnectionError") "refused"));
    reflexivity.
Defined.





(** X13: the request of [main].  Steps 1 to 5 write no file and lead to one
    call of the generation step, on a client of the service at
    [http://localhost:8080], for 10 rows of a schema with one model
    configuration and the columns [category], [subcategory] and
    [telemetry_value] in this order: the category sampler draws from the keys
    of the taxonomy, the subcategory sampler is conditioned on [category]
    with the taxonomy as its mapping, and the text column names the alias of
    the configured model. *)
Theorem main_sends_request
    (service : DataDesignerConfigBuilder -> Z -> result pyobj) (w : World) :
  (exists w1,
     files w1 = files w /\
     main_try service w
     = (generate_dimo_dataset (main_client service) main_request 10
          ≫= main_tail) w1) /\
  base_url (main_client service) = "http://localhost:8080" /\
  preview (main_client service) = service /\
  model_configs main_request = [main_model_config] /\
  dict_items (column_configs main_request)
  = [("category",
      SamplerColumnConfig "category" CATEGORY
        (CategorySamplerParams (dict_keys dimo_categories)));
     ("subcategory",
      SamplerColumnConfig "subcategory" SUBCATEGORY
        (SubcategorySamplerParams "category" dimo_categories));
     ("telemetry_value",
      LLMTextColumn "telemetry_value" "llm-text" (alias main_model_config)
                    telemetry_prompt)].
Proof.
  split; [apply main_reaches_generation|]. split; [reflexivity|].
  split; [reflexivity|]. split; [reflexivity|].
  unfold main_request. rewrite (build_subcategory_mapping_id _ dimo_categories_wf).
  reflexivity.
Qed.

(* ------------------------------------------------------------------------- *)
(** ** The text of the output file is plain ASCII *)













